(** * PandaWiki backend configuration resolver

    A shallow embedding of [backend/config/config.go]: the [Config]
    structure, the host/address helpers, [NewConfig] (defaults, then the
    optional configuration file, then the environment) and
    [overrideWithEnv], together with the typed key accessors that delegate
    to the process-wide viper store.

    The process environment is a finite map from variable names to values;
    [os.Getenv] returns the empty string for a variable that is not set.
    [fmt.Sprintf] with [%s] verbs is string concatenation. Go's [int] is
    an integer in [Z]. The source reuses field names ([Type], [Password],
    ...) across structures; here each field carries the name of its
    structure, as in [MQ_Type] and [Auth_Type]. *)

From Stdlib Require Import ZArith Ascii String List DecimalString.
From stdpp Require Import base option gmap strings.

Open Scope string_scope.
Open Scope Z_scope.

(** ** The configuration structure *)

Record LogConfig := { Log_Level : Z }.

Record HTTPConfig := { HTTP_Port : Z }.

Record PGConfig := { PG_DSN : string }.

Record NATSConfig := {
  NATS_Server : string;
  NATS_User : string;
  NATS_Password : string
}.

Record MQConfig := { MQ_Type : string; MQ_NATS : NATSConfig }.

Record CTRAGConfig := { CTRAG_BaseURL : string; CTRAG_APIKey : string }.

Record RAGConfig := { RAG_Provider : string; RAG_CTRAG : CTRAGConfig }.

Record RedisConfig := { Redis_Addr : string; Redis_Password : string }.

Record JWTConfig := { JWT_Secret : string }.

Record AuthConfig := { Auth_Type : string; Auth_JWT : JWTConfig }.

Record S3Config := {
  S3_Endpoint : string;
  S3_AccessKey : string;
  S3_SecretKey : string
}.

Record Config := {
  Log : LogConfig;
  HTTP : HTTPConfig;
  AdminPassword : string;
  PG : PGConfig;
  MQ : MQConfig;
  RAG : RAGConfig;
  Redis : RedisConfig;
  Auth : AuthConfig;
  S3 : S3Config;
  CaddyAPI : string;
  SubnetPrefix : string
}.

(** Field assignments [c.X.Y = v] of the source, one function per assigned
    field. *)
Definition set_PG_DSN (v : string) (c : Config) : Config :=
  {| Log := Log c; HTTP := HTTP c; AdminPassword := AdminPassword c;
     PG := {| PG_DSN := v |};
     MQ := MQ c; RAG := RAG c; Redis := Redis c; Auth := Auth c; S3 := S3 c;
     CaddyAPI := CaddyAPI c; SubnetPrefix := SubnetPrefix c |}.

Definition set_NATS_Password (v : string) (c : Config) : Config :=
  {| Log := Log c; HTTP := HTTP c; AdminPassword := AdminPassword c;
     PG := PG c;
     MQ := {| MQ_Type := MQ_Type (MQ c);
              MQ_NATS := {| NATS_Server := NATS_Server (MQ_NATS (MQ c));
                            NATS_User := NATS_User (MQ_NATS (MQ c));
                            NATS_Password := v |} |};
     RAG := RAG c; Redis := Redis c; Auth := Auth c; S3 := S3 c;
     CaddyAPI := CaddyAPI c; SubnetPrefix := SubnetPrefix c |}.

Definition set_NATS_Server (v : string) (c : Config) : Config :=
  {| Log := Log c; HTTP := HTTP c; AdminPassword := AdminPassword c;
     PG := PG c;
     MQ := {| MQ_Type := MQ_Type (MQ c);
              MQ_NATS := {| NATS_Server := v;
                            NATS_User := NATS_User (MQ_NATS (MQ c));
                            NATS_Password := NATS_Password (MQ_NATS (MQ c)) |} |};
     RAG := RAG c; Redis := Redis c; Auth := Auth c; S3 := S3 c;
     CaddyAPI := CaddyAPI c; SubnetPrefix := SubnetPrefix c |}.

Definition set_CTRAG_BaseURL (v : string) (c : Config) : Config :=
  {| Log := Log c; HTTP := HTTP c; AdminPassword := AdminPassword c;
     PG := PG c; MQ := MQ c;
     RAG := {| RAG_Provider := RAG_Provider (RAG c);
               RAG_CTRAG := {| CTRAG_BaseURL := v;
                               CTRAG_APIKey := CTRAG_APIKey (RAG_CTRAG (RAG c)) |} |};
     Redis := Redis c; Auth := Auth c; S3 := S3 c;
     CaddyAPI := CaddyAPI c; SubnetPrefix := SubnetPrefix c |}.

Definition set_Redis_Password (v : string) (c : Config) : Config :=
  {| Log := Log c; HTTP := HTTP c; AdminPassword := AdminPassword c;
     PG := PG c; MQ := MQ c; RAG := RAG c;
     Redis := {| Redis_Addr := Redis_Addr (Redis c); Redis_Password := v |};
     Auth := Auth c; S3 := S3 c;
     CaddyAPI := CaddyAPI c; SubnetPrefix := SubnetPrefix c |}.

Definition set_Redis_Addr (v : string) (c : Config) : Config :=
  {| Log := Log c; HTTP := HTTP c; AdminPassword := AdminPassword c;
     PG := PG c; MQ := MQ c; RAG := RAG c;
     Redis := {| Redis_Addr := v; Redis_Password := Redis_Password (Redis c) |};
     Auth := Auth c; S3 := S3 c;
     CaddyAPI := CaddyAPI c; SubnetPrefix := SubnetPrefix c |}.

Definition set_JWT_Secret (v : string) (c : Config) : Config :=
  {| Log := Log c; HTTP := HTTP c; AdminPassword := AdminPassword c;
     PG := PG c; MQ := MQ c; RAG := RAG c; Redis := Redis c;
     Auth := {| Auth_Type := Auth_Type (Auth c);
                Auth_JWT := {| JWT_Secret := v |} |};
     S3 := S3 c;
     CaddyAPI := CaddyAPI c; SubnetPrefix := SubnetPrefix c |}.

Definition set_S3_SecretKey (v : string) (c : Config) : Config :=
  {| Log := Log c; HTTP := HTTP c; AdminPassword := AdminPassword c;
     PG := PG c; MQ := MQ c; RAG := RAG c; Redis := Redis c; Auth := Auth c;
     S3 := {| S3_Endpoint := S3_Endpoint (S3 c);
              S3_AccessKey := S3_AccessKey (S3 c);
              S3_SecretKey := v |};
     CaddyAPI := CaddyAPI c; SubnetPrefix := SubnetPrefix c |}.

Definition set_S3_Endpoint (v : string) (c : Config) : Config :=
  {| Log := Log c; HTTP := HTTP c; AdminPassword := AdminPassword c;
     PG := PG c; MQ := MQ c; RAG := RAG c; Redis := Redis c; Auth := Auth c;
     S3 := {| S3_Endpoint := v;
              S3_AccessKey := S3_AccessKey (S3 c);
              S3_SecretKey := S3_SecretKey (S3 c) |};
     CaddyAPI := CaddyAPI c; SubnetPrefix := SubnetPrefix c |}.

Definition set_AdminPassword (v : string) (c : Config) : Config :=
  {| Log := Log c; HTTP := HTTP c; AdminPassword := v;
     PG := PG c; MQ := MQ c; RAG := RAG c; Redis := Redis c; Auth := Auth c;
     S3 := S3 c;
     CaddyAPI := CaddyAPI c; SubnetPrefix := SubnetPrefix c |}.

Definition set_SubnetPrefix (v : string) (c : Config) : Config :=
  {| Log := Log c; HTTP := HTTP c; AdminPassword := AdminPassword c;
     PG := PG c; MQ := MQ c; RAG := RAG c; Redis := Redis c; Auth := Auth c;
     S3 := S3 c;
     CaddyAPI := CaddyAPI c; SubnetPrefix := v |}.

(** ** The process environment *)

(** [os.Getenv]: the value of the variable, or the empty string when the
    variable is not present. *)
Definition Getenv (env : gmap string string) (key : string) : string :=
  default "" (env !! key).

(** Go's [s != ""]. *)
Definition nonempty (s : string) : bool :=
  match s with EmptyString => false | String _ _ => true end.

(** ** Host and address helpers *)

Definition getMinioEndpoint (env : gmap string string) : string :=
  let minioHost := Getenv env "MINIO_HOST" in
  if nonempty minioHost then minioHost +:+ ":9000"
  else "panda-wiki-minio:9000".

Definition getPostgresHost (env : gmap string string) : string :=
  let pgHost := Getenv env "POSTGRES_HOST" in
  if nonempty pgHost then pgHost else "panda-wiki-postgres".

Definition getRedisAddr (env : gmap string string) : string :=
  let redisHost := Getenv env "REDIS_HOST" in
  if nonempty redisHost then redisHost +:+ ":6379"
  else "panda-wiki-redis:6379".

Definition getNatsServer (env : gmap string string) : string :=
  let natsHost := Getenv env "NATS_HOST" in
  if nonempty natsHost then "nats://" +:+ natsHost +:+ ":4222"
  else
    let SUBNET_PREFIX := Getenv env "SUBNET_PREFIX" in
    let SUBNET_PREFIX :=
      if nonempty SUBNET_PREFIX then SUBNET_PREFIX else "169.254.15" in
    "nats://" +:+ SUBNET_PREFIX +:+ ".13:4222".

Definition getRagBaseURL (env : gmap string string) : string :=
  let ragHost := Getenv env "RAG_HOST" in
  if nonempty ragHost then "http://" +:+ ragHost +:+ ":8080/api/v1"
  else
    let SUBNET_PREFIX := Getenv env "SUBNET_PREFIX" in
    let SUBNET_PREFIX :=
      if nonempty SUBNET_PREFIX then SUBNET_PREFIX else "169.254.15" in
    "http://" +:+ SUBNET_PREFIX +:+ ".18:8080/api/v1".

(** The connection-string template shared by the default DSN and by the
    [POSTGRES_PASSWORD] override. *)
Definition pgDSN (host password : string) : string :=
  "host=" +:+ host +:+ " user=panda-wiki password=" +:+ password
  +:+ " dbname=panda-wiki port=5432 sslmode=disable TimeZone=Asia/Shanghai".

(** ** The default structure built at the start of [NewConfig]

    The local [SUBNET_PREFIX] that [NewConfig] computes from the environment
    is not used by the literal: the [SubnetPrefix] field starts as the fixed
    string. *)
Definition defaultConfig (env : gmap string string) : Config :=
  {| Log := {| Log_Level := 0 |};
     AdminPassword := "";
     HTTP := {| HTTP_Port := 8000 |};
     PG := {| PG_DSN := pgDSN (getPostgresHost env) "panda-wiki-secret" |};
     MQ := {| MQ_Type := "nats";
              MQ_NATS := {| NATS_Server := getNatsServer env;
                            NATS_User := "panda-wiki";
                            NATS_Password := "" |} |};
     RAG := {| RAG_Provider := "ct";
               RAG_CTRAG := {| CTRAG_BaseURL := getRagBaseURL env;
                               CTRAG_APIKey := "sk-1234567890" |} |};
     Redis := {| Redis_Addr := getRedisAddr env; Redis_Password := "" |};
     Auth := {| Auth_Type := "jwt"; Auth_JWT := {| JWT_Secret := "" |} |};
     S3 := {| S3_Endpoint := getMinioEndpoint env;
              S3_AccessKey := "s3panda-wiki";
              S3_SecretKey := "" |};
     CaddyAPI := "/app/run/caddy-admin.sock";
     SubnetPrefix := "169.254.15" |}.

(** ** The environment-override pass *)

(** One [if env := os.Getenv(key); env != "" { assign env }] statement. *)
Definition ifenv (env : gmap string string) (key : string)
    (assign : string -> Config -> Config) (c : Config) : Config :=
  let e := Getenv env key in
  if nonempty e then assign e c else c.

Definition overrideWithEnv (env : gmap string string) (c : Config) : Config :=
  let c := ifenv env "POSTGRES_PASSWORD"
             (fun e => set_PG_DSN (pgDSN (getPostgresHost env) e)) c in
  let c := ifenv env "NATS_PASSWORD" set_NATS_Password c in
  let c := ifenv env "REDIS_PASSWORD" set_Redis_Password c in
  let c := ifenv env "JWT_SECRET" set_JWT_Secret c in
  let c := ifenv env "S3_SECRET_KEY" set_S3_SecretKey c in
  let c := ifenv env "ADMIN_PASSWORD" set_AdminPassword c in
  let c := ifenv env "SUBNET_PREFIX" set_SubnetPrefix c in
  let c := ifenv env "PG_DSN" set_PG_DSN c in
  let c := ifenv env "MQ_NATS_SERVER" set_NATS_Server c in
  let c := ifenv env "RAG_CT_RAG_BASE_URL" set_CTRAG_BaseURL c in
  let c := ifenv env "REDIS_ADDR" set_Redis_Addr c in
  let c := ifenv env "S3_ENDPOINT" set_S3_Endpoint c in
  c.

(** ** Substring test

    [strings.Contains] of Go's standard library, used to state that a
    connection string carries a given password. *)
Fixpoint Contains (s substr : string) : bool :=
  String.prefix substr s ||
  match s with
  | EmptyString => false
  | String _ s' => Contains s' substr
  end.

(** ** Errors *)

(** The results of [NewConfig]: the error kinds that [viper.ReadInConfig]
    and [viper.Unmarshal] hand back. [ConfigFileNotFoundError] is the one
    kind the source tells apart by a type assertion. *)
Inductive error :=
| ConfigFileNotFoundError
| ConfigReadError (msg : string)
| DecodeError (field : string).

Inductive result (A : Type) :=
| Ok (a : A)
| Err (e : error).

Arguments Ok {A} a.
Arguments Err {A} e.

#[global] Instance result_ret : MRet result := fun A a => Ok a.

#[global] Instance result_bind : MBind result := fun A B f r =>
  match r with
  | Ok a => f a
  | Err e => Err e
  end.

Definition is_Err {A : Type} (r : result A) : bool :=
  match r with Ok _ => false | Err _ => true end.

(** ** Values of a configuration document

    What the parser of the configuration file yields and viper keeps: nil,
    booleans, integers, strings, sequences, and mappings with string keys in
    document order. Floating-point scalars are left out; no field of
    [Config] is one. An integer scalar is a Go [int], or a [uint64] when it
    lies above the [int] range. *)
#[warnings="-register-all"] Inductive Value :=
| VNil
| VBool (b : bool)
| VInt (n : Z)
| VString (s : string)
| VList (l : list Value)
| VMap (m : list (string * Value)).

(** Indexing a mapping by key (the first binding of the key). *)
Fixpoint assoc (k : string) (m : list (string * Value)) : option Value :=
  match m with
  | [] => None
  | (k', v) :: m' => if String.eqb k k' then Some v else assoc k m'
  end.

(** ** Integer syntax of [strconv]

    [strconv.FormatInt] in base 10, and [strconv.ParseInt(s, 0, 64)]: an
    optional sign, an optional base prefix ([0b], [0o], [0x], or a leading
    [0] for octal), digits, and underscores as digit separators. *)
Definition FormatInt (n : Z) : string := NilZero.string_of_int (Z.to_int n).

Definition byte (c : ascii) : N := N_of_ascii c.

(** [lower(c) = c | ('x' - 'X')]. *)
Definition lower (c : ascii) : N := N.lor (byte c) 32.

Definition digitValue (c : ascii) : option N :=
  if (48 <=? byte c)%N && (byte c <=? 57)%N then Some (byte c - 48)%N
  else if (97 <=? lower c)%N && (lower c <=? 122)%N then Some (lower c - 97 + 10)%N
  else None.

Fixpoint parseDigits (base : N) (acc : N) (s : string) : option N :=
  match s with
  | EmptyString => Some acc
  | String c s' =>
      if (byte c =? 95)%N then parseDigits base acc s'
      else
        match digitValue c with
        | Some d => if (d <? base)%N then parseDigits base (acc * base + d)%N s' else None
        | None => None
        end
  end.

Inductive Saw := SawBegin | SawDigit | SawUnderscore | SawOther.

Fixpoint underscoreLoop (hex : bool) (saw : Saw) (s : string) : bool :=
  match s with
  | EmptyString => match saw with SawUnderscore => false | _ => true end
  | String c s' =>
      if ((48 <=? byte c)%N && (byte c <=? 57)%N)
         || (hex && (97 <=? lower c)%N && (lower c <=? 102)%N)
      then underscoreLoop hex SawDigit s'
      else if (byte c =? 95)%N then
        match saw with
        | SawDigit => underscoreLoop hex SawUnderscore s'
        | _ => false
        end
      else
        match saw with
        | SawUnderscore => false
        | _ => underscoreLoop hex SawOther s'
        end
  end.

Definition isBasePrefix (c : ascii) : bool :=
  (lower c =? 98)%N || (lower c =? 111)%N || (lower c =? 120)%N.

Definition underscoreOK (s : string) : bool :=
  match s with
  | String "0" (String p s') =>
      if isBasePrefix p then underscoreLoop (lower p =? 120)%N SawDigit s'
      else underscoreLoop false SawBegin s
  | _ => underscoreLoop false SawBegin s
  end.

Definition hasUnderscore (s : string) : bool :=
  Contains s "_".

(** [strconv.ParseUint(s, 0, 64)]. *)
Definition ParseUint (s : string) : option N :=
  match s with
  | EmptyString => None
  | String c0 rest =>
      let '(base, digits) :=
        if (byte c0 =? 48)%N then
          match rest with
          | String p (String d ds) =>
              if (lower p =? 98)%N then (2%N, String d ds)
              else if (lower p =? 111)%N then (8%N, String d ds)
              else if (lower p =? 120)%N then (16%N, String d ds)
              else (8%N, rest)
          | _ => (8%N, rest)
          end
        else (10%N, s) in
      match parseDigits base 0 digits with
      | Some n =>
          if hasUnderscore s && negb (underscoreOK s) then None
          else if (n <? 2 ^ 64)%N then Some n else None
      | None => None
      end
  end.

(** [strconv.ParseInt(s, 0, 64)]. *)
Definition ParseInt (s : string) : option Z :=
  match s with
  | EmptyString => None
  | String c rest =>
      let neg := (byte c =? 45)%N in
      let s' := if neg || (byte c =? 43)%N then rest else s in
      match ParseUint s' with
      | Some un =>
          if neg then
            if (un <=? 2 ^ 63)%N then Some (- Z.of_N un) else None
          else
            if (un <? 2 ^ 63)%N then Some (Z.of_N un) else None
      | None => None
      end
  end.

(** ** The viper store

    The package-level viper instance. Of its state, the source depends on
    the document loaded by [ReadInConfig]; no default, flag or environment
    binding is ever registered with it, so the loaded document is the only
    layer behind its lookups. Keys are stored lower-cased. *)
Record Viper := { config : list (string * Value) }.

Definition viper_New : Viper := {| config := [] |}.

(** What the search of ["."] and ["./config"] for [config.yml] finds: no
    file, a file that cannot be read or parsed, or a parsed document. *)
Inductive ConfigFile :=
| FileAbsent
| FileUnreadable (msg : string)
| FileParsed (settings : list (string * Value)).

(** [viper.ReadInConfig]: the store is replaced only when the file was read
    and parsed. *)
Definition ReadInConfig (file : ConfigFile) (v : Viper) : Viper * option error :=
  match file with
  | FileAbsent => (v, Some ConfigFileNotFoundError)
  | FileUnreadable msg => (v, Some (ConfigReadError msg))
  | FileParsed settings => ({| config := settings |}, None)
  end.

(** The type assertion [err.(viper.ConfigFileNotFoundError)]. *)
Definition isConfigFileNotFoundError (e : error) : bool :=
  match e with ConfigFileNotFoundError => true | _ => false end.

(** *** Lookup by dotted key *)

(** [strings.ToLower] on ASCII letters. *)
Fixpoint ToLower (s : string) : string :=
  match s with
  | EmptyString => EmptyString
  | String c s' =>
      String (if (65 <=? byte c)%N && (byte c <=? 90)%N
              then ascii_of_N (byte c + 32) else c)
             (ToLower s')
  end.

(** [strings.Split(s, ".")]. *)
Fixpoint Split (s : string) : list string :=
  match s with
  | EmptyString => [EmptyString]
  | String c s' =>
      if (byte c =? 46)%N then EmptyString :: Split s'
      else
        match Split s' with
        | [] => [String c EmptyString]
        | w :: ws => String c w :: ws
        end
  end.

(** Descent through nested mappings along a key path. *)
Fixpoint searchMap (m : list (string * Value)) (path : list string) : option Value :=
  match path with
  | [] => Some (VMap m)
  | k :: rest =>
      match assoc k m with
      | None => None
      | Some v =>
          match rest with
          | [] => Some v
          | _ :: _ =>
              match v with
              | VMap m' => searchMap m' rest
              | _ => None
              end
          end
      end
  end.

(** The value a document holds at a key path, where nil counts as absent. *)
Definition find (m : list (string * Value)) (path : list string) : option Value :=
  match searchMap m path with
  | Some VNil => None
  | r => r
  end.

(** [viper.Get]: the key is lower-cased and split at the dots, and looked up
    in the loaded document. *)
Definition viper_Get (v : Viper) (key : string) : option Value :=
  find (config v) (Split (ToLower key)).

(** *** Coercion of looked-up values

    The [cast] package behind the typed getters: for a requested type, its
    zero value and a conversion that may fail. A getter drops the failure
    and answers the zero value, as it does for a missing key. *)
Class Cast (T : Type) := {
  zero_value : T;
  ToE : Value -> option T
}.

Definition viper_GetAs {T : Type} `{Cast T} (v : Viper) (key : string) : T :=
  match viper_Get v key with
  | Some x => default zero_value (ToE x)
  | None => zero_value
  end.

(** The accessors of [*Config]: the receiver is not used. *)
Definition GetString `{Cast string} (c : Config) (v : Viper) (key : string) : string :=
  viper_GetAs v key.

Definition GetInt `{Cast Z} (c : Config) (v : Viper) (key : string) : Z :=
  viper_GetAs v key.





(** Conversions to [string] and [int] on the scalars of a document. *)
#[global] Instance cast_string : Cast string := {|
  zero_value := "";
  ToE x :=
    match x with
    | VString s => Some s
    | VInt n => Some (FormatInt n)
    | VBool b => Some (if b then "true" else "false")
    | VNil => Some ""
    | _ => None
    end
|}.

#[global] Instance cast_int : Cast Z := {|
  zero_value := 0;
  ToE x :=
    match x with
    | VInt n => Some n
    | VString s => ParseInt s
    | VBool b => Some (if b then 1 else 0)
    | VNil => Some 0
    | _ => None
    end
|}.

(** ** Merging the document onto the structure

    [viper.Unmarshal] decodes the stored document onto the structure it is
    given, field by field along the [mapstructure] tags, with weakly typed
    input: a key that is absent or nil leaves the field as it is; a string
    field also takes an integer (printed in base 10) or a boolean (["1"] or
    ["0"]); an integer field also takes a boolean or a string in
    [ParseInt]'s syntax (the empty string reads as zero); a nested structure
    takes a mapping and nothing else. The first field that cannot be decoded
    is reported. *)
Definition field (k : string) (m : list (string * Value)) : option Value :=
  match assoc k m with
  | Some VNil => None
  | r => r
  end.

(** A 64-bit unsigned scalar stored into an [int]. *)
Definition wrap64 (n : Z) : Z := (n + 2 ^ 63) mod 2 ^ 64 - 2 ^ 63.

Definition decodeString (name : string) (data : option Value) (cur : string)
    : result string :=
  match data with
  | None => Ok cur
  | Some (VString s) => Ok s
  | Some (VBool b) => Ok (if b then "1" else "0")
  | Some (VInt n) => Ok (FormatInt n)
  | Some _ => Err (DecodeError name)
  end.

Definition decodeInt (name : string) (data : option Value) (cur : Z) : result Z :=
  match data with
  | None => Ok cur
  | Some (VInt n) => Ok (wrap64 n)
  | Some (VBool b) => Ok (if b then 1 else 0)
  | Some (VString s) =>
      match ParseInt (if nonempty s then s else "0") with
      | Some n => Ok n
      | None => Err (DecodeError name)
      end
  | Some _ => Err (DecodeError name)
  end.

Definition decodeStruct (name : string) (data : option Value)
    : result (list (string * Value)) :=
  match data with
  | None => Ok []
  | Some (VMap m) => Ok m
  | Some _ => Err (DecodeError name)
  end.

Definition decodeLogConfig (m : list (string * Value)) (c : LogConfig)
    : result LogConfig :=
  level ← decodeInt "log.level" (field "level" m) (Log_Level c);
  mret {| Log_Level := level |}.

Definition decodeHTTPConfig (m : list (string * Value)) (c : HTTPConfig)
    : result HTTPConfig :=
  port ← decodeInt "http.port" (field "port" m) (HTTP_Port c);
  mret {| HTTP_Port := port |}.

Definition decodePGConfig (m : list (string * Value)) (c : PGConfig)
    : result PGConfig :=
  dsn ← decodeString "pg.dsn" (field "dsn" m) (PG_DSN c);
  mret {| PG_DSN := dsn |}.

Definition decodeNATSConfig (m : list (string * Value)) (c : NATSConfig)
    : result NATSConfig :=
  server ← decodeString "mq.nats.server" (field "server" m) (NATS_Server c);
  user ← decodeString "mq.nats.user" (field "user" m) (NATS_User c);
  password ← decodeString "mq.nats.password" (field "password" m) (NATS_Password c);
  mret {| NATS_Server := server; NATS_User := user; NATS_Password := password |}.

Definition decodeMQConfig (m : list (string * Value)) (c : MQConfig)
    : result MQConfig :=
  type ← decodeString "mq.type" (field "type" m) (MQ_Type c);
  natsm ← decodeStruct "mq.nats" (field "nats" m);
  nats ← decodeNATSConfig natsm (MQ_NATS c);
  mret {| MQ_Type := type; MQ_NATS := nats |}.

Definition decodeCTRAGConfig (m : list (string * Value)) (c : CTRAGConfig)
    : result CTRAGConfig :=
  base_url ← decodeString "rag.ct_rag.base_url" (field "base_url" m) (CTRAG_BaseURL c);
  api_key ← decodeString "rag.ct_rag.api_key" (field "api_key" m) (CTRAG_APIKey c);
  mret {| CTRAG_BaseURL := base_url; CTRAG_APIKey := api_key |}.

Definition decodeRAGConfig (m : list (string * Value)) (c : RAGConfig)
    : result RAGConfig :=
  provider ← decodeString "rag.provider" (field "provider" m) (RAG_Provider c);
  ctm ← decodeStruct "rag.ct_rag" (field "ct_rag" m);
  ct ← decodeCTRAGConfig ctm (RAG_CTRAG c);
  mret {| RAG_Provider := provider; RAG_CTRAG := ct |}.

Definition decodeRedisConfig (m : list (string * Value)) (c : RedisConfig)
    : result RedisConfig :=
  addr ← decodeString "redis.addr" (field "addr" m) (Redis_Addr c);
  password ← decodeString "redis.password" (field "password" m) (Redis_Password c);
  mret {| Redis_Addr := addr; Redis_Password := password |}.

Definition decodeJWTConfig (m : list (string * Value)) (c : JWTConfig)
    : result JWTConfig :=
  secret ← decodeString "auth.jwt.secret" (field "secret" m) (JWT_Secret c);
  mret {| JWT_Secret := secret |}.

Definition decodeAuthConfig (m : list (string * Value)) (c : AuthConfig)
    : result AuthConfig :=
  type ← decodeString "auth.type" (field "type" m) (Auth_Type c);
  jwtm ← decodeStruct "auth.jwt" (field "jwt" m);
  jwt ← decodeJWTConfig jwtm (Auth_JWT c);
  mret {| Auth_Type := type; Auth_JWT := jwt |}.

Definition decodeS3Config (m : list (string * Value)) (c : S3Config)
    : result S3Config :=
  endpoint ← decodeString "s3.endpoint" (field "endpoint" m) (S3_Endpoint c);
  access_key ← decodeString "s3.access_key" (field "access_key" m) (S3_AccessKey c);
  secret_key ← decodeString "s3.secret_key" (field "secret_key" m) (S3_SecretKey c);
  mret {| S3_Endpoint := endpoint; S3_AccessKey := access_key;
          S3_SecretKey := secret_key |}.

Definition decodeConfig (m : list (string * Value)) (c : Config) : result Config :=
  logm ← decodeStruct "log" (field "log" m);
  log ← decodeLogConfig logm (Log c);
  httpm ← decodeStruct "http" (field "http" m);
  http ← decodeHTTPConfig httpm (HTTP c);
  admin_password ← decodeString "admin_password" (field "admin_password" m)
                     (AdminPassword c);
  pgm ← decodeStruct "pg" (field "pg" m);
  pg ← decodePGConfig pgm (PG c);
  mqm ← decodeStruct "mq" (field "mq" m);
  mq ← decodeMQConfig mqm (MQ c);
  ragm ← decodeStruct "rag" (field "rag" m);
  rag ← decodeRAGConfig ragm (RAG c);
  redism ← decodeStruct "redis" (field "redis" m);
  redis ← decodeRedisConfig redism (Redis c);
  authm ← decodeStruct "auth" (field "auth" m);
  auth ← decodeAuthConfig authm (Auth c);
  s3m ← decodeStruct "s3" (field "s3" m);
  s3 ← decodeS3Config s3m (S3 c);
  caddy_api ← decodeString "caddy_api" (field "caddy_api" m) (CaddyAPI c);
  subnet_prefix ← decodeString "subnet_prefix" (field "subnet_prefix" m)
                    (SubnetPrefix c);
  mret {| Log := log; HTTP := http; AdminPassword := admin_password; PG := pg;
          MQ := mq; RAG := rag; Redis := redis; Auth := auth; S3 := s3;
          CaddyAPI := caddy_api; SubnetPrefix := subnet_prefix |}.

Definition Unmarshal (v : Viper) (c : Config) : result Config :=
  decodeConfig (config v) c.

(** ** Resolution

    [NewConfig] threads the viper store: it builds the defaults, reads the
    file into the store (a missing file is passed over, any other read error
    is returned), merges the store onto the defaults, and finishes with the
    environment pass. *)
Definition NewConfig (env : gmap string string) (file : ConfigFile) (v : Viper)
    : Viper * result Config :=
  let defaultConfig := defaultConfig env in
  let '(v, err) := ReadInConfig file v in
  let merge :=
    match Unmarshal v defaultConfig with
    | Err e => (v, Err e)
    | Ok c => (v, Ok (overrideWithEnv env c))
    end in
  match err with
  | Some e => if isConfigFileNotFoundError e then merge else (v, Err e)
  | None => merge
  end.

(** ** Notions used by the statements *)

(** The value a field holds after [if env := os.Getenv(key); env != ""]:
    the variable when it is set and non-empty, the current value otherwise. *)
Definition pick (env : gmap string string) (key : string) (cur : string) : string :=
  let e := Getenv env key in
  if nonempty e then e else cur.

(** The database connection string after the pass: [PG_DSN] is assigned
    after [POSTGRES_PASSWORD], so it decides when both are set. *)
Definition pickDSN (env : gmap string string) (cur : string) : string :=
  pick env "PG_DSN"
    (let e := Getenv env "POSTGRES_PASSWORD" in
     if nonempty e then pgDSN (getPostgresHost env) e else cur).



(** Environments and files used in the examples. *)
Definition env0 : gmap string string := ∅.

Definition envPassword : gmap string string :=
  list_to_map [("POSTGRES_PASSWORD", "envpass")].

Definition envPasswordAndDSN : gmap string string :=
  list_to_map [("POSTGRES_PASSWORD", "envpass");
               ("PG_DSN", "postgres://panda@db:5432/wiki")].

Definition envPrefix : gmap string string :=
  list_to_map [("SUBNET_PREFIX", "10.0.0")].

Definition envBroker : gmap string string :=
  list_to_map [("MQ_NATS_SERVER", "nats://broker.example:4222");
               ("NATS_HOST", "nats-a");
               ("SUBNET_PREFIX", "10.0.0")].

Definition filePass : ConfigFile :=
  FileParsed
    [("pg", VMap [("dsn", VString "host=db user=panda-wiki password=filepass dbname=panda-wiki")])].



Definition fileBroker : ConfigFile :=
  FileParsed
    [("subnet_prefix", VString "172.16.0");
     ("mq", VMap [("nats", VMap [("server", VString "nats://from-file:4222")])])].

Definition filePort : ConfigFile :=
  FileParsed [("http", VMap [("port", VInt 9090)])].

Definition fileBadPort : ConfigFile :=
  FileParsed [("http", VMap [("port", VString "eighty")])].

Definition fileBadSection : ConfigFile :=
  FileParsed [("http", VInt 5)].

(** ** The variables and fields of the resolution, as tables *)

(** The twelve variables that [overrideWithEnv] tests, in source order. *)
Definition overrideVars : list string :=
  ["POSTGRES_PASSWORD"; "NATS_PASSWORD"; "REDIS_PASSWORD"; "JWT_SECRET";
   "S3_SECRET_KEY"; "ADMIN_PASSWORD"; "SUBNET_PREFIX"; "PG_DSN";
   "MQ_NATS_SERVER"; "RAG_CT_RAG_BASE_URL"; "REDIS_ADDR"; "S3_ENDPOINT"].

(** The per-service host variables read by the five helpers. *)
Definition hostVars : list string :=
  ["MINIO_HOST"; "POSTGRES_HOST"; "REDIS_HOST"; "NATS_HOST"; "RAG_HOST"].

(** The ten variables of [overrideWithEnv] whose value is assigned to a
    field as it is, each with the field it is assigned to. (The connection
    string is assigned from two variables and is not in this table.) *)
Definition allowList : list (string * (Config -> string)) :=
  [("NATS_PASSWORD", fun c => NATS_Password (MQ_NATS (MQ c)));
   ("REDIS_PASSWORD", fun c => Redis_Password (Redis c));
   ("JWT_SECRET", fun c => JWT_Secret (Auth_JWT (Auth c)));
   ("S3_SECRET_KEY", fun c => S3_SecretKey (S3 c));
   ("ADMIN_PASSWORD", AdminPassword);
   ("SUBNET_PREFIX", SubnetPrefix);
   ("MQ_NATS_SERVER", fun c => NATS_Server (MQ_NATS (MQ c)));
   ("RAG_CT_RAG_BASE_URL", fun c => CTRAG_BaseURL (RAG_CTRAG (RAG c)));
   ("REDIS_ADDR", fun c => Redis_Addr (Redis c));
   ("S3_ENDPOINT", fun c => S3_Endpoint (S3 c))].

(** The string fields of [Config]: the dotted key made of the
    [mapstructure] tags on the way to the field, the variables of
    [overrideWithEnv] that assign to it, and the field. *)
Definition stringFields : list (string * list string * (Config -> string)) :=
  [("admin_password", ["ADMIN_PASSWORD"], AdminPassword);
   ("pg.dsn", ["POSTGRES_PASSWORD"; "PG_DSN"], fun c => PG_DSN (PG c));
   ("mq.type", [], fun c => MQ_Type (MQ c));
   ("mq.nats.server", ["MQ_NATS_SERVER"], fun c => NATS_Server (MQ_NATS (MQ c)));
   ("mq.nats.user", [], fun c => NATS_User (MQ_NATS (MQ c)));
   ("mq.nats.password", ["NATS_PASSWORD"], fun c => NATS_Password (MQ_NATS (MQ c)));
   ("rag.provider", [], fun c => RAG_Provider (RAG c));
   ("rag.ct_rag.base_url", ["RAG_CT_RAG_BASE_URL"],
      fun c => CTRAG_BaseURL (RAG_CTRAG (RAG c)));
   ("rag.ct_rag.api_key", [], fun c => CTRAG_APIKey (RAG_CTRAG (RAG c)));
   ("redis.addr", ["REDIS_ADDR"], fun c => Redis_Addr (Redis c));
   ("redis.password", ["REDIS_PASSWORD"], fun c => Redis_Password (Redis c));
   ("auth.type", [], fun c => Auth_Type (Auth c));
   ("auth.jwt.secret", ["JWT_SECRET"], fun c => JWT_Secret (Auth_JWT (Auth c)));
   ("s3.endpoint", ["S3_ENDPOINT"], fun c => S3_Endpoint (S3 c));
   ("s3.access_key", [], fun c => S3_AccessKey (S3 c));
   ("s3.secret_key", ["S3_SECRET_KEY"], fun c => S3_SecretKey (S3 c));
   ("caddy_api", [], CaddyAPI);
   ("subnet_prefix", ["SUBNET_PREFIX"], SubnetPrefix)].

(** The integer fields of [Config], with their dotted keys. *)
Definition intFields : list (string * (Config -> Z)) :=
  [("log.level", fun c => Log_Level (Log c));
   ("http.port", fun c => HTTP_Port (HTTP c))].

(** More environments and files for the examples. *)
Definition envHosts : gmap string string :=
  list_to_map [("MINIO_HOST", "minio-a"); ("POSTGRES_HOST", "pg-a");
               ("REDIS_HOST", "redis-a"); ("NATS_HOST", "nats-a");
               ("RAG_HOST", "rag-a"); ("SUBNET_PREFIX", "10.0.0")].

Definition envHostsOnly : gmap string string :=
  list_to_map [("MINIO_HOST", "minio-a"); ("POSTGRES_HOST", "pg-a");
               ("REDIS_HOST", "redis-a"); ("NATS_HOST", "nats-a");
               ("RAG_HOST", "rag-a"); ("HOME", "/root")].

Definition envSecrets : gmap string string :=
  list_to_map [("JWT_SECRET", "s3cr3t"); ("REDIS_ADDR", "cache.example:6380");
               ("ADMIN_PASSWORD", "admin-pw")].

Definition envSecretsAndMore : gmap string string :=
  list_to_map [("JWT_SECRET", "s3cr3t"); ("REDIS_ADDR", "cache.example:6380");
               ("ADMIN_PASSWORD", "admin-pw"); ("HOME", "/root");
               ("PATH", "/usr/bin")].

Definition fileFull : ConfigFile :=
  FileParsed
    [("http", VMap [("port", VInt 9090)]);
     ("caddy_api", VString "/tmp/caddy.sock");
     ("redis", VMap [("addr", VString "redis-from-file:6379");
                     ("password", VString "file-redis-pw")]);
     ("auth", VMap [("jwt", VMap [("secret", VString "file-jwt")])])].

(** ** Proof automation *)

(** Splitting a structure into all of its fields. *)
Ltac destruct_config c :=
  destruct c as [[?] [?] ? [?] [? [? ? ?]] [? [? ?]] [? ?] [? [?]] [? ? ?] ? ?].

(** Inverting a successful chain of decoding steps. *)
Ltac inv_bind H :=
  repeat match type of H with
  | match ?r with Ok _ => _ | Err _ => _ end = Ok _ =>
      let E := fresh "E" in destruct r eqn:E; [| discriminate H]
  end.

(** * Properties *)

(** ** Examples of the integer syntax and of a plain resolution *)

Example ParseInt_examples :
  map ParseInt ["8000"; "-12"; "+7"; "0x1F"; "010"; "0b101"; "1_000"; "0";
                "08"; "_1"; "1__0"; "abc"; "-"; "9223372036854775808";
                "-9223372036854775808"]
  = [Some 8000; Some (-12); Some 7; Some 31; Some 8; Some 5; Some 1000; Some 0;
     None; None; None; None; None; None; Some (-9223372036854775808)].
Proof. reflexivity. Qed.

Example NewConfig_no_file_no_env :
  (NewConfig env0 FileAbsent viper_New).2
  = Ok {| Log := {| Log_Level := 0 |};
          HTTP := {| HTTP_Port := 8000 |};
          AdminPassword := "";
          PG := {| PG_DSN := "host=panda-wiki-postgres user=panda-wiki password=panda-wiki-secret dbname=panda-wiki port=5432 sslmode=disable TimeZone=Asia/Shanghai" |};
          MQ := {| MQ_Type := "nats";
                   MQ_NATS := {| NATS_Server := "nats://169.254.15.13:4222";
                                 NATS_User := "panda-wiki";
                                 NATS_Password := "" |} |};
          RAG := {| RAG_Provider := "ct";
                    RAG_CTRAG := {| CTRAG_BaseURL := "http://169.254.15.18:8080/api/v1";
                                    CTRAG_APIKey := "sk-1234567890" |} |};
          Redis := {| Redis_Addr := "panda-wiki-redis:6379"; Redis_Password := "" |};
          Auth := {| Auth_Type := "jwt"; Auth_JWT := {| JWT_Secret := "" |} |};
          S3 := {| S3_Endpoint := "panda-wiki-minio:9000";
                   S3_AccessKey := "s3panda-wiki";
                   S3_SecretKey := "" |};
          CaddyAPI := "/app/run/caddy-admin.sock";
          SubnetPrefix := "169.254.15" |}.
Proof. reflexivity. Qed.

(** ** Reading the override pass field by field *)

Lemma nonempty_true (s : string) : s <> "" -> nonempty s = true.
Proof. destruct s; [congruence | reflexivity]. Qed.

Lemma nonempty_false (s : string) : s = "" -> nonempty s = false.
Proof. intros ->. reflexivity. Qed.

Lemma pick_set env key cur : Getenv env key <> "" -> pick env key cur = Getenv env key.
Proof. intros H. unfold pick. cbv zeta. now rewrite (nonempty_true _ H). Qed.

Lemma pick_unset env key cur : Getenv env key = "" -> pick env key cur = cur.
Proof. intros H. unfold pick. cbv zeta. now rewrite (nonempty_false _ H). Qed.

Lemma pick_idem env key cur : pick env key (pick env key cur) = pick env key cur.
Proof. unfold pick. cbv zeta. now destruct (nonempty (Getenv env key)). Qed.

Lemma pickDSN_idem env cur : pickDSN env (pickDSN env cur) = pickDSN env cur.
Proof.
  unfold pickDSN, pick. cbv zeta.
  destruct (nonempty (Getenv env "PG_DSN")); [reflexivity |].
  now destruct (nonempty (Getenv env "POSTGRES_PASSWORD")).
Qed.

(** A conditional assignment is an unconditional one of the picked value,
    whenever assigning a field its own value changes nothing. *)
Lemma ifenv_assign (get : Config -> string) (set : string -> Config -> Config)
    (g : string -> string) env key c :
  (forall c0, set (get c0) c0 = c0) ->
  ifenv env key (fun e => set (g e)) c
  = set (let e := Getenv env key in if nonempty e then g e else get c) c.
Proof.
  intros Hid. unfold ifenv. cbv zeta.
  destruct (nonempty (Getenv env key)); [reflexivity | now rewrite Hid].
Qed.

Lemma ifenv_pick (get : Config -> string) (set : string -> Config -> Config)
    env key c :
  (forall c0, set (get c0) c0 = c0) ->
  ifenv env key set c = set (pick env key (get c)) c.
Proof. intros Hid. exact (ifenv_assign get set (fun e => e) env key c Hid). Qed.

Lemma overrideWithEnv_fields env c :
  overrideWithEnv env c =
  {| Log := Log c;
     HTTP := HTTP c;
     AdminPassword := pick env "ADMIN_PASSWORD" (AdminPassword c);
     PG := {| PG_DSN := pickDSN env (PG_DSN (PG c)) |};
     MQ := {| MQ_Type := MQ_Type (MQ c);
              MQ_NATS :=
                {| NATS_Server := pick env "MQ_NATS_SERVER" (NATS_Server (MQ_NATS (MQ c)));
                   NATS_User := NATS_User (MQ_NATS (MQ c));
                   NATS_Password := pick env "NATS_PASSWORD" (NATS_Password (MQ_NATS (MQ c))) |} |};
     RAG := {| RAG_Provider := RAG_Provider (RAG c);
               RAG_CTRAG :=
                 {| CTRAG_BaseURL := pick env "RAG_CT_RAG_BASE_URL" (CTRAG_BaseURL (RAG_CTRAG (RAG c)));
                    CTRAG_APIKey := CTRAG_APIKey (RAG_CTRAG (RAG c)) |} |};
     Redis := {| Redis_Addr := pick env "REDIS_ADDR" (Redis_Addr (Redis c));
                 Redis_Password := pick env "REDIS_PASSWORD" (Redis_Password (Redis c)) |};
     Auth := {| Auth_Type := Auth_Type (Auth c);
                Auth_JWT := {| JWT_Secret := pick env "JWT_SECRET" (JWT_Secret (Auth_JWT (Auth c))) |} |};
     S3 := {| S3_Endpoint := pick env "S3_ENDPOINT" (S3_Endpoint (S3 c));
              S3_AccessKey := S3_AccessKey (S3 c);
              S3_SecretKey := pick env "S3_SECRET_KEY" (S3_SecretKey (S3 c)) |};
     CaddyAPI := CaddyAPI c;
     SubnetPrefix := pick env "SUBNET_PREFIX" (SubnetPrefix c) |}.
Proof.
  unfold overrideWithEnv. cbv zeta.
  rewrite (ifenv_assign (fun c => PG_DSN (PG c)) set_PG_DSN
             (fun e => pgDSN (getPostgresHost env) e))
    by (intros c0; destruct_config c0; reflexivity).
  rewrite (ifenv_pick (fun c => NATS_Password (MQ_NATS (MQ c))) set_NATS_Password)
    by (intros c0; destruct_config c0; reflexivity).
  rewrite (ifenv_pick (fun c => Redis_Password (Redis c)) set_Redis_Password)
    by (intros c0; destruct_config c0; reflexivity).
  rewrite (ifenv_pick (fun c => JWT_Secret (Auth_JWT (Auth c))) set_JWT_Secret)
    by (intros c0; destruct_config c0; reflexivity).
  rewrite (ifenv_pick (fun c => S3_SecretKey (S3 c)) set_S3_SecretKey)
    by (intros c0; destruct_config c0; reflexivity).
  rewrite (ifenv_pick AdminPassword set_AdminPassword)
    by (intros c0; destruct_config c0; reflexivity).
  rewrite (ifenv_pick SubnetPrefix set_SubnetPrefix)
    by (intros c0; destruct_config c0; reflexivity).
  rewrite (ifenv_pick (fun c => PG_DSN (PG c)) set_PG_DSN)
    by (intros c0; destruct_config c0; reflexivity).
  rewrite (ifenv_pick (fun c => NATS_Server (MQ_NATS (MQ c))) set_NATS_Server)
    by (intros c0; destruct_config c0; reflexivity).
  rewrite (ifenv_pick (fun c => CTRAG_BaseURL (RAG_CTRAG (RAG c))) set_CTRAG_BaseURL)
    by (intros c0; destruct_config c0; reflexivity).
  rewrite (ifenv_pick (fun c => Redis_Addr (Redis c)) set_Redis_Addr)
    by (intros c0; destruct_config c0; reflexivity).
  rewrite (ifenv_pick (fun c => S3_Endpoint (S3 c)) set_S3_Endpoint)
    by (intros c0; destruct_config c0; reflexivity).
  destruct_config c. reflexivity.
Qed.

(** ** The override pass: idempotence, frame, precedence of the DSN *)

(** C6. The environment-override pass is idempotent: for every structure
    and every environment, running [overrideWithEnv] on its own result gives
    that result again. *)
Theorem C6_overrideWithEnv_idempotent (env : gmap string string) (c : Config) :
  overrideWithEnv env (overrideWithEnv env c) = overrideWithEnv env c.
Proof.
  rewrite (overrideWithEnv_fields env (overrideWithEnv env c)).
  rewrite (overrideWithEnv_fields env c). cbn [Log HTTP AdminPassword PG MQ RAG
    Redis Auth S3 CaddyAPI SubnetPrefix PG_DSN MQ_Type MQ_NATS NATS_Server
    NATS_User NATS_Password RAG_Provider RAG_CTRAG CTRAG_BaseURL CTRAG_APIKey
    Redis_Addr Redis_Password Auth_Type Auth_JWT JWT_Secret S3_Endpoint
    S3_AccessKey S3_SecretKey].
  now rewrite !pick_idem, pickDSN_idem.
Qed.

(** C9. Frame property of the environment-override pass: whatever the
    environment, [overrideWithEnv] leaves the fields outside its allow-list
    as they were: Log.Level, HTTP.Port, MQ.Type, MQ.NATS.User, RAG.Provider,
    RAG.CTRAG.APIKey, Auth.Type, S3.AccessKey and CaddyAPI (Redis has no
    field besides Addr and Password). *)
Theorem C9_overrideWithEnv_frame (env : gmap string string) (c : Config) :
  let c' := overrideWithEnv env c in
  Log_Level (Log c') = Log_Level (Log c) /\
  HTTP_Port (HTTP c') = HTTP_Port (HTTP c) /\
  MQ_Type (MQ c') = MQ_Type (MQ c) /\
  NATS_User (MQ_NATS (MQ c')) = NATS_User (MQ_NATS (MQ c)) /\
  RAG_Provider (RAG c') = RAG_Provider (RAG c) /\
  CTRAG_APIKey (RAG_CTRAG (RAG c')) = CTRAG_APIKey (RAG_CTRAG (RAG c)) /\
  Auth_Type (Auth c') = Auth_Type (Auth c) /\
  S3_AccessKey (S3 c') = S3_AccessKey (S3 c) /\
  CaddyAPI c' = CaddyAPI c.
Proof.
  cbv zeta. rewrite overrideWithEnv_fields. cbn. repeat split.
Qed.

(** What a successful [NewConfig] returns: the environment pass applied to
    the merge of the loaded store onto the defaults. *)
Lemma NewConfig_Ok env file v v' c :
  NewConfig env file v = (v', Ok c) ->
  exists c0, Unmarshal v' (defaultConfig env) = Ok c0 /\ c = overrideWithEnv env c0.
Proof.
  unfold NewConfig. cbv zeta.
  destruct (ReadInConfig file v) as [v1 err].
  destruct (Unmarshal v1 (defaultConfig env)) as [c0 | e] eqn:Hm.
  - destruct err as [e |].
    + destruct (isConfigFileNotFoundError e); intros H; inversion H; subst.
      exists c0. split; [assumption | reflexivity].
    + intros H; inversion H; subst. exists c0. split; [assumption | reflexivity].
  - destruct err as [e' |]; [destruct (isConfigFileNotFoundError e') |];
      intros H; inversion H.
Qed.

(** C10. Within the environment-override pass the full connection string
    outranks the password: when [POSTGRES_PASSWORD] and [PG_DSN] are both
    set and non-empty the resulting DSN is exactly the [PG_DSN] value; when
    only [POSTGRES_PASSWORD] is, the DSN is the whole fixed template, with
    the host from [POSTGRES_HOST] or its default and the password from the
    environment, and whatever DSN the structure held before (from the
    defaults or the file) is discarded. The same holds of the DSN that
    [NewConfig] resolves. *)
Theorem C10_pg_dsn_outranks_password (env : gmap string string) :
  Getenv env "POSTGRES_PASSWORD" <> "" ->
  (Getenv env "PG_DSN" <> "" ->
     (forall c, PG_DSN (PG (overrideWithEnv env c)) = Getenv env "PG_DSN") /\
     (forall file v v' c, NewConfig env file v = (v', Ok c) ->
        PG_DSN (PG c) = Getenv env "PG_DSN")) /\
  (Getenv env "PG_DSN" = "" ->
     let host := if nonempty (Getenv env "POSTGRES_HOST")
                 then Getenv env "POSTGRES_HOST" else "panda-wiki-postgres" in
     let dsn := "host=" +:+ host +:+ " user=panda-wiki password="
                +:+ Getenv env "POSTGRES_PASSWORD"
                +:+ " dbname=panda-wiki port=5432 sslmode=disable TimeZone=Asia/Shanghai" in
     (forall c, PG_DSN (PG (overrideWithEnv env c)) = dsn) /\
     (forall file v v' c, NewConfig env file v = (v', Ok c) -> PG_DSN (PG c) = dsn)).
Proof.
  intros Hpw. split.
  - intros Hdsn.
    assert (Hc : forall c, PG_DSN (PG (overrideWithEnv env c)) = Getenv env "PG_DSN").
    { intros c. rewrite overrideWithEnv_fields. cbn. unfold pickDSN.
      now rewrite pick_set. }
    split; [exact Hc |].
    intros file v v' c H. destruct (NewConfig_Ok _ _ _ _ _ H) as (c0 & _ & ->).
    apply Hc.
  - intros Hdsn. cbv zeta.
    assert (Hc : forall c, PG_DSN (PG (overrideWithEnv env c))
                           = pgDSN (getPostgresHost env) (Getenv env "POSTGRES_PASSWORD")).
    { intros c. rewrite overrideWithEnv_fields. cbn. unfold pickDSN.
      rewrite pick_unset by assumption. cbv zeta.
      now rewrite (nonempty_true _ Hpw). }
    split; [exact Hc |].
    intros file v v' c H. destruct (NewConfig_Ok _ _ _ _ _ H) as (c0 & _ & ->).
    apply Hc.
Qed.

(** C7. The full broker-address variable wins unconditionally: when
    [MQ_NATS_SERVER] is set and non-empty, the broker address of every
    configuration that [NewConfig] resolves is exactly that string, whatever
    the network prefix, [NATS_HOST] and the file hold. *)
Theorem C7_mq_nats_server_wins (env : gmap string string) (file : ConfigFile)
    (v v' : Viper) (c : Config) :
  Getenv env "MQ_NATS_SERVER" <> "" ->
  NewConfig env file v = (v', Ok c) ->
  NATS_Server (MQ_NATS (MQ c)) = Getenv env "MQ_NATS_SERVER".
Proof.
  intros Hs H. destruct (NewConfig_Ok _ _ _ _ _ H) as (c0 & _ & ->).
  rewrite overrideWithEnv_fields. cbn. now apply pick_set.
Qed.

(** ** What a successful merge says about single fields *)


(** Key paths of length one, two and three, read through the mappings that
    the merge descends into. *)
Lemma find_1 m a : find m [a] = field a m.
Proof. unfold find, field. cbn. now destruct (assoc a m) as [[] |]. Qed.

Lemma find_2 m n a b m1 :
  decodeStruct n (field a m) = Ok m1 -> find m [a; b] = field b m1.
Proof.
  unfold decodeStruct. unfold field at 1. intros H.
  destruct (assoc a m) as [[] |] eqn:Ea; inversion H; subst;
    unfold find; cbn [searchMap]; rewrite Ea; try reflexivity.
  exact (find_1 m1 b).
Qed.

Lemma find_3 m n1 n2 a b k m1 m2 :
  decodeStruct n1 (field a m) = Ok m1 ->
  decodeStruct n2 (field b m1) = Ok m2 ->
  find m [a; b; k] = field k m2.
Proof.
  unfold decodeStruct at 1. unfold field at 1. intros H H2.
  destruct (assoc a m) as [[] |] eqn:Ea; inversion H; subst;
    unfold find; cbn [searchMap]; rewrite Ea;
    try (inversion H2; subst; reflexivity).
  exact (find_2 m1 n2 b k m2 H2).
Qed.



(** ** Substrings of concatenations *)





(** ** The database connection string across the three layers *)




(** ** Default addresses and the network prefix *)

(** The two helpers that fall back to the prefix, with no host variable. *)
Lemma getNatsServer_derived env :
  Getenv env "NATS_HOST" = "" ->
  getNatsServer env
  = "nats://" +:+ (if nonempty (Getenv env "SUBNET_PREFIX")
                   then Getenv env "SUBNET_PREFIX" else "169.254.15") +:+ ".13:4222".
Proof. intros H. unfold getNatsServer. cbv zeta. now rewrite (nonempty_false _ H). Qed.

Lemma getRagBaseURL_derived env :
  Getenv env "RAG_HOST" = "" ->
  getRagBaseURL env
  = "http://" +:+ (if nonempty (Getenv env "SUBNET_PREFIX")
                   then Getenv env "SUBNET_PREFIX" else "169.254.15") +:+ ".18:8080/api/v1".
Proof. intros H. unfold getRagBaseURL. cbv zeta. now rewrite (nonempty_false _ H). Qed.

(** C2 (as stated) fails for two of the four services: with the network
    prefix set to 10.0.0 and no per-service host variable, the cache/store
    address and the database host are fixed names in which the prefix does
    not occur, the same names as with no prefix set at all. *)
Lemma C2_counterexample :
  getRedisAddr envPrefix = "panda-wiki-redis:6379" /\
  Contains (getRedisAddr envPrefix) "10.0.0" = false /\
  getRedisAddr envPrefix = getRedisAddr env0 /\
  getPostgresHost envPrefix = "panda-wiki-postgres" /\
  Contains (getPostgresHost envPrefix) "10.0.0" = false /\
  getPostgresHost envPrefix = getPostgresHost env0.
Proof. repeat split; reflexivity. Qed.

(** C2 (amended). With the per-service host variable unset and network
    prefix P (the [SUBNET_PREFIX] variable, or 169.254.15 when that is unset
    or empty), the default broker address is [nats://P.13:4222] and the
    default retrieval base URL is [http://P.18:8080/api/v1]; the default
    cache/store address and database host do not depend on the prefix: they
    are [panda-wiki-redis:6379] and [panda-wiki-postgres]. *)
Theorem C2_default_addresses (env : gmap string string) (P : string) :
  P = (if nonempty (Getenv env "SUBNET_PREFIX")
       then Getenv env "SUBNET_PREFIX" else "169.254.15") ->
  (Getenv env "NATS_HOST" = "" ->
     getNatsServer env = "nats://" +:+ P +:+ ".13:4222") /\
  (Getenv env "RAG_HOST" = "" ->
     getRagBaseURL env = "http://" +:+ P +:+ ".18:8080/api/v1") /\
  (Getenv env "REDIS_HOST" = "" -> getRedisAddr env = "panda-wiki-redis:6379") /\
  (Getenv env "POSTGRES_HOST" = "" -> getPostgresHost env = "panda-wiki-postgres").
Proof.
  intros ->. repeat split; intros H.
  - now apply getNatsServer_derived.
  - now apply getRagBaseURL_derived.
  - unfold getRedisAddr. cbv zeta. now rewrite (nonempty_false _ H).
  - unfold getPostgresHost. cbv zeta. now rewrite (nonempty_false _ H).
Qed.

Lemma C2_witness :
  getNatsServer envPrefix = "nats://10.0.0.13:4222" /\
  getRagBaseURL envPrefix = "http://10.0.0.18:8080/api/v1" /\
  getRedisAddr envPrefix = "panda-wiki-redis:6379" /\
  getPostgresHost envPrefix = "panda-wiki-postgres".
Proof.
  pose proof (C2_default_addresses envPrefix "10.0.0" eq_refl) as (Hn & Hr & Hc & Hp).
  exact (conj (Hn eq_refl) (conj (Hr eq_refl) (conj (Hc eq_refl) (Hp eq_refl)))).
Defined.




Lemma C7_witness :
  exists v' c, NewConfig envBroker fileBroker viper_New = (v', Ok c) /\
    NATS_Server (MQ_NATS (MQ c)) = "nats://broker.example:4222".
Proof.
  eexists _, _. split; [reflexivity |].
  refine (C7_mq_nats_server_wins envBroker fileBroker viper_New _ _ _ eq_refl).
  discriminate.
Defined.

Lemma C10_witness :
  PG_DSN (PG (overrideWithEnv envPasswordAndDSN (defaultConfig envPasswordAndDSN)))
  = "postgres://panda@db:5432/wiki" /\
  (exists v' c, NewConfig envPassword filePass viper_New = (v', Ok c) /\
     PG_DSN (PG c)
     = "host=panda-wiki-postgres user=panda-wiki password=envpass dbname=panda-wiki port=5432 sslmode=disable TimeZone=Asia/Shanghai").
Proof.
  split.
  - refine (proj1 (proj1 (C10_pg_dsn_outranks_password envPasswordAndDSN _) _) _);
      discriminate.
  - eexists _, _. split; [reflexivity |].
    refine (proj2 (proj2 (C10_pg_dsn_outranks_password envPassword _) eq_refl)
              filePass viper_New _ _ eq_refl).
    discriminate.
Defined.

(** ** Failure of the resolution *)

Lemma decodeConfig_nil c : decodeConfig [] c = Ok c.
Proof. destruct_config c. reflexivity. Qed.

(** C3. [NewConfig] fails, returning an error and no structure, exactly
    when a configuration file is found and either cannot be read or parsed,
    or holds contents that cannot be merged onto the structure; when no file
    is found the resolution succeeds and returns the structure built from
    the defaults (with the environment pass applied to it). *)
Theorem C3_failure_iff_bad_file (env : gmap string string) (file : ConfigFile) :
  (is_Err (NewConfig env file viper_New).2 = true <->
     (exists msg, file = FileUnreadable msg) \/
     (exists m, file = FileParsed m /\
                is_Err (Unmarshal {| config := m |} (defaultConfig env)) = true)) /\
  NewConfig env FileAbsent viper_New
  = (viper_New, Ok (overrideWithEnv env (defaultConfig env))).
Proof.
  split.
  - destruct file as [| msg | m]; unfold NewConfig, Unmarshal;
      cbn [ReadInConfig config viper_New isConfigFileNotFoundError].
    + rewrite decodeConfig_nil. cbn. split; [discriminate |].
      intros [[msg H] | (m & H & _)]; discriminate.
    + cbn. split; [| reflexivity]. intros _. left. now exists msg.
    + destruct (decodeConfig m (defaultConfig env)) as [c | e] eqn:E; cbn [snd is_Err].
      * split; [discriminate |].
        intros [[msg H] | (m' & H & He)]; [discriminate |].
        inversion H; subst. rewrite E in He. discriminate.
      * split; [| reflexivity]. intros _. right. exists m.
        split; [reflexivity |]. now rewrite E.
  - unfold NewConfig, Unmarshal.
    cbn [ReadInConfig config viper_New isConfigFileNotFoundError].
    now rewrite decodeConfig_nil.
Qed.

Example NewConfig_unreadable_file :
  (NewConfig env0 (FileUnreadable "yaml: line 3: mapping values are not allowed") viper_New).2
  = Err (ConfigReadError "yaml: line 3: mapping values are not allowed").
Proof. reflexivity. Qed.

Example NewConfig_bad_port :
  (NewConfig env0 fileBadPort viper_New).2 = Err (DecodeError "http.port").
Proof. reflexivity. Qed.

Example NewConfig_bad_section :
  (NewConfig env0 fileBadSection viper_New).2 = Err (DecodeError "http").
Proof. reflexivity. Qed.

Example NewConfig_file_port :
  exists c, (NewConfig env0 filePort viper_New).2 = Ok c /\
            HTTP_Port (HTTP c) = 9090 /\
            PG_DSN (PG c) = PG_DSN (PG (defaultConfig env0)).
Proof. eexists. repeat split; reflexivity. Qed.

(** ** The generic key accessor *)




Example accessor_examples :
  let v' := (NewConfig envPrefix filePort viper_New).1 in
  let c := defaultConfig envPrefix in
  GetInt c v' "http.port" = 9090 /\
  GetInt c v' "HTTP.Port" = 9090 /\
  GetString c v' "http.port" = "9090" /\
  GetString c v' "subnet_prefix" = "" /\
  GetInt c v' "log.level" = 0 /\
  GetInt c v' "http" = 0.
Proof. repeat split; reflexivity. Qed.

(** ** Completeness of the defaults *)

(** C8 (as stated) fails: with no file and no environment variable the
    resolved log level, which is not a secret, is zero. *)
Lemma C8_counterexample :
  exists c, (NewConfig env0 FileAbsent viper_New).2 = Ok c /\ Log_Level (Log c) = 0.
Proof. eexists. split; reflexivity. Qed.

(** C8 (amended). With no configuration file and no environment variable
    set, [NewConfig] succeeds and every field of the resolved structure
    holds its documented default, non-empty (non-zero) for every field
    except the secrets (admin password, broker password, cache/store
    password, signing secret, object-store secret key), which are the empty
    string, and the log level, which is 0. *)
Theorem C8_default_completeness :
  exists c, NewConfig env0 FileAbsent viper_New = (viper_New, Ok c) /\
    Log_Level (Log c) = 0 /\
    HTTP_Port (HTTP c) = 8000 /\
    PG_DSN (PG c) = "host=panda-wiki-postgres user=panda-wiki password=panda-wiki-secret dbname=panda-wiki port=5432 sslmode=disable TimeZone=Asia/Shanghai" /\
    MQ_Type (MQ c) = "nats" /\
    NATS_Server (MQ_NATS (MQ c)) = "nats://169.254.15.13:4222" /\
    NATS_User (MQ_NATS (MQ c)) = "panda-wiki" /\
    RAG_Provider (RAG c) = "ct" /\
    CTRAG_BaseURL (RAG_CTRAG (RAG c)) = "http://169.254.15.18:8080/api/v1" /\
    CTRAG_APIKey (RAG_CTRAG (RAG c)) = "sk-1234567890" /\
    Redis_Addr (Redis c) = "panda-wiki-redis:6379" /\
    Auth_Type (Auth c) = "jwt" /\
    S3_Endpoint (S3 c) = "panda-wiki-minio:9000" /\
    S3_AccessKey (S3 c) = "s3panda-wiki" /\
    CaddyAPI c = "/app/run/caddy-admin.sock" /\
    SubnetPrefix c = "169.254.15" /\
    AdminPassword c = "" /\
    NATS_Password (MQ_NATS (MQ c)) = "" /\
    Redis_Password (Redis c) = "" /\
    JWT_Secret (Auth_JWT (Auth c)) = "" /\
    S3_SecretKey (S3 c) = "".
Proof. eexists. repeat split; reflexivity. Qed.

(** * Further properties of the resolver *)

(** ** The allow-list of the environment pass *)

Ltac in_list := simpl; repeat first [left; reflexivity | right].

Ltac each_entry H :=
  simpl in H;
  repeat (destruct H as [H | H]; [inversion H; subst |]);
  try contradiction.

Lemma NewConfig_absent env :
  NewConfig env FileAbsent viper_New
  = (viper_New, Ok (overrideWithEnv env (defaultConfig env))).
Proof.
  unfold NewConfig, Unmarshal.
  cbn [ReadInConfig config viper_New isConfigFileNotFoundError].
  now rewrite decodeConfig_nil.
Qed.

(** X1. A variable of the allow-list that is set and non-empty decides its
    field: after [overrideWithEnv] the field is exactly the variable's
    value, whatever it held before, and so it is in every configuration that
    [NewConfig] resolves, whatever the file says. *)
Theorem X1_allow_list_set (env : gmap string string) (key : string)
    (get : Config -> string) :
  List.In (key, get) allowList ->
  Getenv env key <> "" ->
  (forall c, get (overrideWithEnv env c) = Getenv env key) /\
  (forall file v v' c, NewConfig env file v = (v', Ok c) -> get c = Getenv env key).
Proof.
  intros Hin Hset.
  assert (Hc : forall c, get (overrideWithEnv env c) = Getenv env key).
  { intros c. rewrite overrideWithEnv_fields.
    each_entry Hin; cbn; now apply pick_set. }
  split; [exact Hc |].
  intros file v v' c H. destruct (NewConfig_Ok _ _ _ _ _ H) as (c0 & _ & ->).
  apply Hc.
Qed.

Lemma X1_witness :
  Redis_Addr (Redis (overrideWithEnv envSecrets (defaultConfig envSecrets)))
  = "cache.example:6380" /\
  exists v' c, NewConfig envSecrets fileFull viper_New = (v', Ok c) /\
    JWT_Secret (Auth_JWT (Auth c)) = "s3cr3t".
Proof.
  split.
  - refine (proj1 (X1_allow_list_set envSecrets "REDIS_ADDR"
                     (fun c => Redis_Addr (Redis c)) _ _) _).
    + in_list.
    + discriminate.
  - eexists _, _. split; [reflexivity |].
    refine (proj2 (X1_allow_list_set envSecrets "JWT_SECRET"
                     (fun c => JWT_Secret (Auth_JWT (Auth c))) _ _)
              fileFull viper_New _ _ eq_refl).
    + in_list.
    + discriminate.
Defined.

(** X2. A variable of the allow-list that is unset or empty leaves its
    field alone: [overrideWithEnv] returns the field as it was; and the
    connection string is left alone when both [POSTGRES_PASSWORD] and
    [PG_DSN] are unset or empty. *)
Theorem X2_allow_list_unset (env : gmap string string) (c : Config) :
  (forall key get, List.In (key, get) allowList -> Getenv env key = "" ->
     get (overrideWithEnv env c) = get c) /\
  (Getenv env "POSTGRES_PASSWORD" = "" -> Getenv env "PG_DSN" = "" ->
     PG_DSN (PG (overrideWithEnv env c)) = PG_DSN (PG c)).
Proof.
  split.
  - intros key get Hin Hunset. rewrite overrideWithEnv_fields.
    each_entry Hin; cbn; now apply pick_unset.
  - intros Hpw Hdsn. rewrite overrideWithEnv_fields. cbn. unfold pickDSN.
    rewrite pick_unset by assumption. cbv zeta. now rewrite (nonempty_false _ Hpw).
Qed.

Lemma X2_witness :
  S3_Endpoint (S3 (overrideWithEnv envSecrets (defaultConfig envSecrets)))
  = "panda-wiki-minio:9000" /\
  PG_DSN (PG (overrideWithEnv envSecrets (defaultConfig envSecrets)))
  = PG_DSN (PG (defaultConfig envSecrets)).
Proof.
  pose proof (X2_allow_list_unset envSecrets (defaultConfig envSecrets)) as [H1 H2].
  split.
  - refine (H1 "S3_ENDPOINT" (fun c => S3_Endpoint (S3 c)) _ eq_refl). in_list.
  - exact (H2 eq_refl eq_refl).
Defined.

(** X3. With none of its twelve variables set to a non-empty value, the
    environment pass is the identity, whatever else the environment
    holds. *)
Theorem X3_overrideWithEnv_identity (env : gmap string string) (c : Config) :
  (forall key, List.In key overrideVars -> Getenv env key = "") ->
  overrideWithEnv env c = c.
Proof.
  intros H. rewrite overrideWithEnv_fields. unfold pickDSN.
  rewrite !pick_unset by (apply H; in_list). cbv zeta.
  rewrite (nonempty_false (Getenv env "POSTGRES_PASSWORD")) by (apply H; in_list).
  destruct_config c. reflexivity.
Qed.

Lemma X3_witness :
  overrideWithEnv envHostsOnly (defaultConfig envHostsOnly) = defaultConfig envHostsOnly.
Proof.
  apply (X3_overrideWithEnv_identity envHostsOnly).
  intros key H. each_entry H; reflexivity.
Defined.

Lemma overrideWithEnv_agree env1 env2 c :
  (forall key, List.In key ("POSTGRES_HOST" :: overrideVars) ->
     Getenv env1 key = Getenv env2 key) ->
  overrideWithEnv env1 c = overrideWithEnv env2 c.
Proof.
  intros H. unfold overrideWithEnv, ifenv, getPostgresHost. cbv zeta.
  now rewrite !(H "POSTGRES_HOST"), !(H "POSTGRES_PASSWORD"), !(H "NATS_PASSWORD"),
    !(H "REDIS_PASSWORD"), !(H "JWT_SECRET"), !(H "S3_SECRET_KEY"),
    !(H "ADMIN_PASSWORD"), !(H "SUBNET_PREFIX"), !(H "PG_DSN"),
    !(H "MQ_NATS_SERVER"), !(H "RAG_CT_RAG_BASE_URL"), !(H "REDIS_ADDR"),
    !(H "S3_ENDPOINT") by in_list.
Qed.

(** X4. The environment pass reads nothing but its twelve variables and
    [POSTGRES_HOST]: two environments that agree on these give the same
    result on every structure. *)
Theorem X4_overrideWithEnv_reads_only (env1 env2 : gmap string string) (c : Config) :
  (forall key, List.In key ("POSTGRES_HOST" :: overrideVars) ->
     Getenv env1 key = Getenv env2 key) ->
  overrideWithEnv env1 c = overrideWithEnv env2 c.
Proof. intros H. now apply overrideWithEnv_agree. Qed.

Lemma X4_witness :
  overrideWithEnv envSecrets (defaultConfig env0)
  = overrideWithEnv envSecretsAndMore (defaultConfig env0).
Proof.
  apply (X4_overrideWithEnv_reads_only envSecrets envSecretsAndMore).
  intros key H. each_entry H; reflexivity.
Defined.

(** ** The host helpers *)

Lemma nonempty_app_l a b : nonempty a = true -> nonempty (a +:+ b) = true.
Proof. now destruct a. Qed.

Lemma nonempty_pick env key cur : nonempty cur = true -> nonempty (pick env key cur) = true.
Proof.
  intros H. unfold pick. cbv zeta.
  now destruct (nonempty (Getenv env key)) eqn:E.
Qed.

Lemma pick_empty env key : pick env key "" = Getenv env key.
Proof. unfold pick. cbv zeta. now destruct (Getenv env key). Qed.

(** X5. A per-service host variable that is set and non-empty decides the
    default address of its service: the object-store endpoint is the host
    with port 9000, the database host is the variable itself, the
    cache/store address is the host with port 6379, the broker address is
    [nats://host:4222] and the retrieval base URL is
    [http://host:8080/api/v1]; the network prefix plays no part. *)
Theorem X5_host_variable_decides (env : gmap string string) :
  (Getenv env "MINIO_HOST" <> "" ->
     getMinioEndpoint env = Getenv env "MINIO_HOST" +:+ ":9000") /\
  (Getenv env "POSTGRES_HOST" <> "" ->
     getPostgresHost env = Getenv env "POSTGRES_HOST") /\
  (Getenv env "REDIS_HOST" <> "" ->
     getRedisAddr env = Getenv env "REDIS_HOST" +:+ ":6379") /\
  (Getenv env "NATS_HOST" <> "" ->
     getNatsServer env = "nats://" +:+ Getenv env "NATS_HOST" +:+ ":4222") /\
  (Getenv env "RAG_HOST" <> "" ->
     getRagBaseURL env = "http://" +:+ Getenv env "RAG_HOST" +:+ ":8080/api/v1").
Proof.
  repeat split; intros H.
  - unfold getMinioEndpoint. cbv zeta. now rewrite (nonempty_true _ H).
  - unfold getPostgresHost. cbv zeta. now rewrite (nonempty_true _ H).
  - unfold getRedisAddr. cbv zeta. now rewrite (nonempty_true _ H).
  - unfold getNatsServer. cbv zeta. now rewrite (nonempty_true _ H).
  - unfold getRagBaseURL. cbv zeta. now rewrite (nonempty_true _ H).
Qed.

Lemma X5_witness :
  getMinioEndpoint envHosts = "minio-a:9000" /\
  getPostgresHost envHosts = "pg-a" /\
  getRedisAddr envHosts = "redis-a:6379" /\
  getNatsServer envHosts = "nats://nats-a:4222" /\
  getRagBaseURL envHosts = "http://rag-a:8080/api/v1".
Proof.
  pose proof (X5_host_variable_decides envHosts) as (H1 & H2 & H3 & H4 & H5).
  refine (conj (H1 _) (conj (H2 _) (conj (H3 _) (conj (H4 _) (H5 _)))));
    discriminate.
Defined.

Lemma helpers_nonempty env :
  nonempty (getMinioEndpoint env) = true /\
  nonempty (getPostgresHost env) = true /\
  nonempty (getRedisAddr env) = true /\
  nonempty (getNatsServer env) = true /\
  nonempty (getRagBaseURL env) = true.
Proof.
  repeat split.
  - unfold getMinioEndpoint. cbv zeta.
    destruct (nonempty (Getenv env "MINIO_HOST")) eqn:E;
      [now apply nonempty_app_l | reflexivity].
  - unfold getPostgresHost. cbv zeta.
    now destruct (nonempty (Getenv env "POSTGRES_HOST")) eqn:E.
  - unfold getRedisAddr. cbv zeta.
    destruct (nonempty (Getenv env "REDIS_HOST")) eqn:E;
      [now apply nonempty_app_l | reflexivity].
  - unfold getNatsServer. cbv zeta.
    now destruct (nonempty (Getenv env "NATS_HOST")).
  - unfold getRagBaseURL. cbv zeta.
    now destruct (nonempty (Getenv env "RAG_HOST")).
Qed.

(** X6. Without a configuration file the resolution succeeds for every
    environment, and no address of the resolved structure is empty: the
    connection string, the broker address, the retrieval base URL, the
    cache/store address, the object-store endpoint and the network prefix
    are all non-empty strings. *)
Theorem X6_no_file_addresses_nonempty (env : gmap string string) :
  exists c, NewConfig env FileAbsent viper_New = (viper_New, Ok c) /\
    nonempty (PG_DSN (PG c)) = true /\
    nonempty (NATS_Server (MQ_NATS (MQ c))) = true /\
    nonempty (CTRAG_BaseURL (RAG_CTRAG (RAG c))) = true /\
    nonempty (Redis_Addr (Redis c)) = true /\
    nonempty (S3_Endpoint (S3 c)) = true /\
    nonempty (SubnetPrefix c) = true.
Proof.
  eexists. split; [apply NewConfig_absent |].
  rewrite overrideWithEnv_fields.
  cbn [PG PG_DSN MQ MQ_NATS NATS_Server RAG RAG_CTRAG CTRAG_BaseURL Redis
       Redis_Addr S3 S3_Endpoint SubnetPrefix defaultConfig].
  destruct (helpers_nonempty env) as (Hm & _ & Hr & Hn & Hg).
  repeat split; try (now apply nonempty_pick).
  unfold pickDSN. apply nonempty_pick.
  now destruct (nonempty (Getenv env "POSTGRES_PASSWORD")).
Qed.

(** X7. Without a configuration file every secret of the resolved
    structure is exactly its environment variable, and empty when the
    variable is not set: the admin password, the broker password, the
    cache/store password, the signing secret and the object-store secret
    key. *)
Theorem X7_no_file_secrets_from_env (env : gmap string string) :
  exists c, NewConfig env FileAbsent viper_New = (viper_New, Ok c) /\
    AdminPassword c = Getenv env "ADMIN_PASSWORD" /\
    NATS_Password (MQ_NATS (MQ c)) = Getenv env "NATS_PASSWORD" /\
    Redis_Password (Redis c) = Getenv env "REDIS_PASSWORD" /\
    JWT_Secret (Auth_JWT (Auth c)) = Getenv env "JWT_SECRET" /\
    S3_SecretKey (S3 c) = Getenv env "S3_SECRET_KEY".
Proof.
  eexists. split; [apply NewConfig_absent |].
  rewrite overrideWithEnv_fields. cbn. now rewrite !pick_empty.
Qed.

(** X8. Without a configuration file each address follows a fixed order of
    precedence over the environment: the full-address variable, then the
    per-service host variable, then the built-in name or the network prefix
    (itself [SUBNET_PREFIX] before 169.254.15). The connection string is
    [PG_DSN], or else the template with the host from [POSTGRES_HOST] or the
    built-in name and the password from [POSTGRES_PASSWORD] or the built-in
    one. *)
Theorem X8_no_file_address_precedence (env : gmap string string) :
  let var k := Getenv env k in
  let prefix := if nonempty (var "SUBNET_PREFIX") then var "SUBNET_PREFIX"
                else "169.254.15" in
  exists c, NewConfig env FileAbsent viper_New = (viper_New, Ok c) /\
    S3_Endpoint (S3 c)
    = (if nonempty (var "S3_ENDPOINT") then var "S3_ENDPOINT"
       else if nonempty (var "MINIO_HOST") then var "MINIO_HOST" +:+ ":9000"
       else "panda-wiki-minio:9000") /\
    Redis_Addr (Redis c)
    = (if nonempty (var "REDIS_ADDR") then var "REDIS_ADDR"
       else if nonempty (var "REDIS_HOST") then var "REDIS_HOST" +:+ ":6379"
       else "panda-wiki-redis:6379") /\
    NATS_Server (MQ_NATS (MQ c))
    = (if nonempty (var "MQ_NATS_SERVER") then var "MQ_NATS_SERVER"
       else if nonempty (var "NATS_HOST") then "nats://" +:+ var "NATS_HOST" +:+ ":4222"
       else "nats://" +:+ prefix +:+ ".13:4222") /\
    CTRAG_BaseURL (RAG_CTRAG (RAG c))
    = (if nonempty (var "RAG_CT_RAG_BASE_URL") then var "RAG_CT_RAG_BASE_URL"
       else if nonempty (var "RAG_HOST")
            then "http://" +:+ var "RAG_HOST" +:+ ":8080/api/v1"
       else "http://" +:+ prefix +:+ ".18:8080/api/v1") /\
    SubnetPrefix c = prefix /\
    PG_DSN (PG c)
    = (if nonempty (var "PG_DSN") then var "PG_DSN"
       else
         "host="
         +:+ (if nonempty (var "POSTGRES_HOST") then var "POSTGRES_HOST"
              else "panda-wiki-postgres")
         +:+ " user=panda-wiki password="
         +:+ (if nonempty (var "POSTGRES_PASSWORD") then var "POSTGRES_PASSWORD"
              else "panda-wiki-secret")
         +:+ " dbname=panda-wiki port=5432 sslmode=disable TimeZone=Asia/Shanghai").
Proof.
  cbv zeta. eexists. split; [apply NewConfig_absent |].
  rewrite overrideWithEnv_fields. cbn. repeat split.
  unfold pickDSN, pick, pgDSN, getPostgresHost. cbv zeta.
  now destruct (nonempty (Getenv env "PG_DSN")),
               (nonempty (Getenv env "POSTGRES_PASSWORD")).
Qed.

(** ** The merge of the file, field by field *)

Ltac inv_decoder E f :=
  unfold f, mbind, result_bind in E; inv_bind E;
  unfold mret, result_ret in E; inversion E; subst; clear E.

Ltac inv_decoders :=
  repeat match goal with
  | E : decodeLogConfig _ _ = Ok _ |- _ => inv_decoder E decodeLogConfig
  | E : decodeHTTPConfig _ _ = Ok _ |- _ => inv_decoder E decodeHTTPConfig
  | E : decodePGConfig _ _ = Ok _ |- _ => inv_decoder E decodePGConfig
  | E : decodeMQConfig _ _ = Ok _ |- _ => inv_decoder E decodeMQConfig
  | E : decodeNATSConfig _ _ = Ok _ |- _ => inv_decoder E decodeNATSConfig
  | E : decodeRAGConfig _ _ = Ok _ |- _ => inv_decoder E decodeRAGConfig
  | E : decodeCTRAGConfig _ _ = Ok _ |- _ => inv_decoder E decodeCTRAGConfig
  | E : decodeRedisConfig _ _ = Ok _ |- _ => inv_decoder E decodeRedisConfig
  | E : decodeAuthConfig _ _ = Ok _ |- _ => inv_decoder E decodeAuthConfig
  | E : decodeJWTConfig _ _ = Ok _ |- _ => inv_decoder E decodeJWTConfig
  | E : decodeS3Config _ _ = Ok _ |- _ => inv_decoder E decodeS3Config
  end.

Ltac path_of_key :=
  match goal with
  | |- context [Split (ToLower ?k)] =>
      let p := eval vm_compute in (Split (ToLower k)) in
      change (Split (ToLower k)) with p
  end.

Ltac find_to_field :=
  first [ rewrite find_1
        | erewrite find_3 by eassumption
        | erewrite find_2 by eassumption ].

(** A successful merge decoded every string field from the value the
    document holds at the field's key, starting from the field's value. *)
Lemma decodeConfig_strings m c c' :
  decodeConfig m c = Ok c' ->
  forall key vars get, List.In (key, vars, get) stringFields ->
  exists name,
    decodeString name (find m (Split (ToLower key))) (get c) = Ok (get c').
Proof.
  intros H. unfold decodeConfig, mbind, result_bind in H.
  inv_bind H. unfold mret, result_ret in H. inversion H; subst; clear H.
  inv_decoders.
  intros key vars get Hin.
  each_entry Hin; path_of_key; find_to_field; cbn; eexists; eassumption.
Qed.

Lemma decodeConfig_ints m c c' :
  decodeConfig m c = Ok c' ->
  forall key get, List.In (key, get) intFields ->
  exists name,
    decodeInt name (find m (Split (ToLower key))) (get c) = Ok (get c').
Proof.
  intros H. unfold decodeConfig, mbind, result_bind in H.
  inv_bind H. unfold mret, result_ret in H. inversion H; subst; clear H.
  inv_decoders.
  intros key get Hin.
  each_entry Hin; path_of_key; find_to_field; cbn; eexists; eassumption.
Qed.


Lemma overrideWithEnv_unset_field env key vars get c :
  List.In (key, vars, get) stringFields ->
  (forall k, List.In k vars -> Getenv env k = "") ->
  get (overrideWithEnv env c) = get c.
Proof.
  intros Hin Hunset. rewrite overrideWithEnv_fields.
  each_entry Hin; cbn; try reflexivity;
    try (apply pick_unset, Hunset; in_list).
  unfold pickDSN. rewrite pick_unset by (apply Hunset; in_list). cbv zeta.
  now rewrite (nonempty_false (Getenv env "POSTGRES_PASSWORD"))
    by (apply Hunset; in_list).
Qed.

Lemma overrideWithEnv_ints env key get c :
  List.In (key, get) intFields -> get (overrideWithEnv env c) = get c.
Proof. intros Hin. rewrite overrideWithEnv_fields. each_entry Hin; reflexivity. Qed.









(** ** What the environment cannot change *)

Lemma is_Err_bind {A B : Type} (a1 a2 : result A) (f1 f2 : A -> result B) :
  is_Err a1 = is_Err a2 ->
  (forall x1 x2, is_Err (f1 x1) = is_Err (f2 x2)) ->
  is_Err (a1 ≫= f1) = is_Err (a2 ≫= f2).
Proof.
  intros Ha Hf. unfold mbind, result_bind.
  destruct a1, a2; try discriminate; [apply Hf | reflexivity].
Qed.

Lemma is_Err_bind_same {A B : Type} (a : result A) (f1 f2 : A -> result B) :
  (forall x, is_Err (f1 x) = is_Err (f2 x)) ->
  is_Err (a ≫= f1) = is_Err (a ≫= f2).
Proof.
  intros Hf. unfold mbind, result_bind. destruct a; [apply Hf | reflexivity].
Qed.

Lemma decodeString_is_Err n d c1 c2 :
  is_Err (decodeString n d c1) = is_Err (decodeString n d c2).
Proof. now destruct d as [[] |]. Qed.

Lemma decodeInt_is_Err n d c1 c2 :
  is_Err (decodeInt n d c1) = is_Err (decodeInt n d c2).
Proof. now destruct d as [[] |]. Qed.

Ltac is_Err_steps :=
  repeat first
    [ reflexivity
    | apply is_Err_bind;
        [first [apply decodeString_is_Err | apply decodeInt_is_Err] | intros ? ?]
    | apply is_Err_bind_same; intros ? ].

(** Whether the merge fails is decided by the document, not by the
    structure it is merged onto. *)
Lemma decodeConfig_is_Err m c1 c2 :
  is_Err (decodeConfig m c1) = is_Err (decodeConfig m c2).
Proof.
  assert (HLog : forall m c1 c2,
    is_Err (decodeLogConfig m c1) = is_Err (decodeLogConfig m c2))
    by (intros; unfold decodeLogConfig; is_Err_steps).
  assert (HHTTP : forall m c1 c2,
    is_Err (decodeHTTPConfig m c1) = is_Err (decodeHTTPConfig m c2))
    by (intros; unfold decodeHTTPConfig; is_Err_steps).
  assert (HPG : forall m c1 c2,
    is_Err (decodePGConfig m c1) = is_Err (decodePGConfig m c2))
    by (intros; unfold decodePGConfig; is_Err_steps).
  assert (HNATS : forall m c1 c2,
    is_Err (decodeNATSConfig m c1) = is_Err (decodeNATSConfig m c2))
    by (intros; unfold decodeNATSConfig; is_Err_steps).
  assert (HMQ : forall m c1 c2,
    is_Err (decodeMQConfig m c1) = is_Err (decodeMQConfig m c2)).
  { intros; unfold decodeMQConfig; is_Err_steps.
    apply is_Err_bind; [apply HNATS | intros ? ?; reflexivity]. }
  assert (HCT : forall m c1 c2,
    is_Err (decodeCTRAGConfig m c1) = is_Err (decodeCTRAGConfig m c2))
    by (intros; unfold decodeCTRAGConfig; is_Err_steps).
  assert (HRAG : forall m c1 c2,
    is_Err (decodeRAGConfig m c1) = is_Err (decodeRAGConfig m c2)).
  { intros; unfold decodeRAGConfig; is_Err_steps.
    apply is_Err_bind; [apply HCT | intros ? ?; reflexivity]. }
  assert (HRedis : forall m c1 c2,
    is_Err (decodeRedisConfig m c1) = is_Err (decodeRedisConfig m c2))
    by (intros; unfold decodeRedisConfig; is_Err_steps).
  assert (HJWT : forall m c1 c2,
    is_Err (decodeJWTConfig m c1) = is_Err (decodeJWTConfig m c2))
    by (intros; unfold decodeJWTConfig; is_Err_steps).
  assert (HAuth : forall m c1 c2,
    is_Err (decodeAuthConfig m c1) = is_Err (decodeAuthConfig m c2)).
  { intros; unfold decodeAuthConfig; is_Err_steps.
    apply is_Err_bind; [apply HJWT | intros ? ?; reflexivity]. }
  assert (HS3 : forall m c1 c2,
    is_Err (decodeS3Config m c1) = is_Err (decodeS3Config m c2))
    by (intros; unfold decodeS3Config; is_Err_steps).
  unfold decodeConfig.
  repeat first
    [ reflexivity
    | apply is_Err_bind_same; intros ?
    | apply is_Err_bind;
        [first [ apply decodeString_is_Err | apply HLog | apply HHTTP | apply HPG
               | apply HMQ | apply HRAG | apply HRedis | apply HAuth | apply HS3 ]
        | intros ? ?] ].
Qed.

(** X12. Whether the resolution fails does not depend on the environment:
    for the same file and the same store, [NewConfig] fails under one
    environment exactly when it fails under any other, and leaves the same
    store behind. *)
Theorem X12_failure_independent_of_env (env1 env2 : gmap string string)
    (file : ConfigFile) (v : Viper) :
  is_Err (NewConfig env1 file v).2 = is_Err (NewConfig env2 file v).2 /\
  (NewConfig env1 file v).1 = (NewConfig env2 file v).1.
Proof.
  unfold NewConfig, Unmarshal. cbv zeta.
  destruct (ReadInConfig file v) as [v1 err].
  pose proof (decodeConfig_is_Err (config v1) (defaultConfig env1) (defaultConfig env2)) as He.
  destruct (decodeConfig (config v1) (defaultConfig env1)),
           (decodeConfig (config v1) (defaultConfig env2));
    try discriminate He;
    destruct err as [e' |]; try destruct (isConfigFileNotFoundError e');
    split; reflexivity.
Qed.

Lemma NewConfig_store_read env file v :
  (NewConfig env file v).1 = (ReadInConfig file v).1.
Proof.
  unfold NewConfig. cbv zeta. destruct (ReadInConfig file v) as [v1 err].
  destruct (Unmarshal v1 (defaultConfig env));
    destruct err as [e' |]; try destruct (isConfigFileNotFoundError e');
    reflexivity.
Qed.

Lemma decodeString_same n1 n2 d cur r1 r2 :
  decodeString n1 d cur = Ok r1 -> decodeString n2 d cur = Ok r2 -> r1 = r2.
Proof.
  destruct d as [[] |]; cbn; intros H1 H2; inversion H1; inversion H2; congruence.
Qed.

Lemma decodeInt_same n1 n2 d cur r1 r2 :
  decodeInt n1 d cur = Ok r1 -> decodeInt n2 d cur = Ok r2 -> r1 = r2.
Proof.
  destruct d as [[| | | s | |] |]; cbn; intros H1 H2;
    try (inversion H1; inversion H2; congruence).
  destruct (ParseInt (if nonempty s then s else "0"));
    inversion H1; inversion H2; congruence.
Qed.

(** X13. A field that no variable of the environment pass assigns to is
    settled by the file and the built-in default alone: two resolutions of
    the same file under different environments agree on every string field
    without a variable (broker type and user, provider, API key,
    authentication type, access key, control socket) and on both integer
    fields. *)
Theorem X13_fields_without_variable (env1 env2 : gmap string string)
    (file : ConfigFile) (v v1 v2 : Viper) (c1 c2 : Config) :
  NewConfig env1 file v = (v1, Ok c1) ->
  NewConfig env2 file v = (v2, Ok c2) ->
  (forall key get, List.In (key, [], get) stringFields -> get c1 = get c2) /\
  (forall key get, List.In (key, get) intFields -> get c1 = get c2).
Proof.
  intros H1 H2.
  assert (Hv : v1 = v2).
  { pose proof (NewConfig_store_read env1 file v) as E1.
    pose proof (NewConfig_store_read env2 file v) as E2.
    rewrite H1 in E1. rewrite H2 in E2. cbn in E1, E2. congruence. }
  subst v2.
  destruct (NewConfig_Ok _ _ _ _ _ H1) as (c01 & Hm1 & ->).
  destruct (NewConfig_Ok _ _ _ _ _ H2) as (c02 & Hm2 & ->).
  unfold Unmarshal in Hm1, Hm2. split.
  - intros key get Hin.
    destruct (decodeConfig_strings _ _ _ Hm1 _ _ _ Hin) as [n1 Hd1].
    destruct (decodeConfig_strings _ _ _ Hm2 _ _ _ Hin) as [n2 Hd2].
    rewrite !(overrideWithEnv_unset_field _ key [] get) by (assumption || (intros k [])).
    assert (Hdef : get (defaultConfig env1) = get (defaultConfig env2))
      by (each_entry Hin; reflexivity).
    rewrite Hdef in Hd1. exact (decodeString_same _ _ _ _ _ _ Hd1 Hd2).
  - intros key get Hin.
    destruct (decodeConfig_ints _ _ _ Hm1 _ _ Hin) as [n1 Hd1].
    destruct (decodeConfig_ints _ _ _ Hm2 _ _ Hin) as [n2 Hd2].
    rewrite !(overrideWithEnv_ints _ key get) by assumption.
    assert (Hdef : get (defaultConfig env1) = get (defaultConfig env2))
      by (each_entry Hin; reflexivity).
    rewrite Hdef in Hd1. exact (decodeInt_same _ _ _ _ _ _ Hd1 Hd2).
Qed.

Lemma X13_witness :
  exists v1 c1 v2 c2,
    NewConfig envSecrets fileFull viper_New = (v1, Ok c1) /\
    NewConfig envHosts fileFull viper_New = (v2, Ok c2) /\
    CaddyAPI c1 = CaddyAPI c2 /\ HTTP_Port (HTTP c1) = HTTP_Port (HTTP c2).
Proof.
  eexists _, _, _, _. split; [reflexivity |]. split; [reflexivity |].
  pose proof (X13_fields_without_variable envSecrets envHosts fileFull viper_New
                _ _ _ _ eq_refl eq_refl) as [Hs Hi].
  refine (conj (Hs "caddy_api" CaddyAPI _)
               (Hi "http.port" (fun c => HTTP_Port (HTTP c)) _)); in_list.
Defined.

Lemma overrideWithEnv_twice env c :
  overrideWithEnv env (overrideWithEnv env c) = overrideWithEnv env c.
Proof.
  rewrite (overrideWithEnv_fields env (overrideWithEnv env c)).
  rewrite (overrideWithEnv_fields env c). cbn.
  now rewrite !pick_idem, pickDSN_idem.
Qed.

(** X14. The environment pass has the last word: a configuration that
    [NewConfig] resolved is a fixed point of [overrideWithEnv] under the
    same environment. *)
Theorem X14_resolved_is_fixed_point (env : gmap string string)
    (file : ConfigFile) (v v' : Viper) (c : Config) :
  NewConfig env file v = (v', Ok c) ->
  overrideWithEnv env c = c.
Proof.
  intros H. destruct (NewConfig_Ok _ _ _ _ _ H) as (c0 & _ & ->).
  apply overrideWithEnv_twice.
Qed.

Lemma X14_witness :
  exists v' c, NewConfig envSecrets fileFull viper_New = (v', Ok c) /\
    overrideWithEnv envSecrets c = c.
Proof.
  eexists _, _. split; [reflexivity |].
  exact (X14_resolved_is_fixed_point envSecrets fileFull viper_New _ _ eq_refl).
Defined.

Lemma defaultConfig_agree env1 env2 :
  (forall key, List.In key (hostVars ++ overrideVars) ->
     Getenv env1 key = Getenv env2 key) ->
  defaultConfig env1 = defaultConfig env2.
Proof.
  intros H.
  unfold defaultConfig, getMinioEndpoint, getPostgresHost, getRedisAddr,
    getNatsServer, getRagBaseURL. cbv zeta.
  now rewrite !(H "MINIO_HOST"), !(H "POSTGRES_HOST"), !(H "REDIS_HOST"),
    !(H "NATS_HOST"), !(H "RAG_HOST"), !(H "SUBNET_PREFIX") by in_list.
Qed.

(** X15. The resolution reads seventeen variables and no other: the five
    host variables and the twelve variables of the environment pass. Two
    environments that agree on them give the same store and the same
    result, be it a configuration or an error, for every file. *)
Theorem X15_NewConfig_reads_only (env1 env2 : gmap string string)
    (file : ConfigFile) (v : Viper) :
  (forall key, List.In key (hostVars ++ overrideVars) ->
     Getenv env1 key = Getenv env2 key) ->
  NewConfig env1 file v = NewConfig env2 file v.
Proof.
  intros H. unfold NewConfig. cbv zeta.
  rewrite (defaultConfig_agree env1 env2 H).
  destruct (ReadInConfig file v) as [v1 err].
  destruct (Unmarshal v1 (defaultConfig env2)) as [c0 | e0]; [| reflexivity].
  rewrite (overrideWithEnv_agree env1 env2 c0); [reflexivity |].
  intros key Hk. apply H. each_entry Hk; in_list.
Qed.

Lemma X15_witness :
  NewConfig envSecrets fileFull viper_New = NewConfig envSecretsAndMore fileFull viper_New.
Proof.
  apply (X15_NewConfig_reads_only envSecrets envSecretsAndMore).
  intros key H. each_entry H; reflexivity.
Defined.
